(** * pkg/s3/agent: construction of the S3 agent

    A shallow embedding of [agent.go] (package [agent] of the COSI driver)
    and the properties of its two functions, [validateConfig] and
    [NewS3Agent].

    Go strings are byte strings ([string]), [[]byte] is [list byte], a
    nilable pointer is an [option], a [(T, error)] result of a library
    function is a sum [T + error], and the pair of a handle and an error
    that [NewS3Agent] returns is kept as a pair of options.  The packages the
    file imports ([net/url], [pkg/utils], the AWS SDK) are parameters of
    the development: every theorem holds whatever they answer. *)

From Stdlib Require Import String Ascii List ZArith Bool.
From Stdlib.Strings Require Import Byte.
Import ListNotations.
Local Open Scope string_scope.
Local Open Scope list_scope.

(** ** Errors *)

(** A Go [error] value.  [fmt.Errorf] with a format that has no [%w] verb
    yields a value that only carries its text; the values made by other
    packages ([*url.Error], [awserr.Error], ...) carry the name of the package
    that made them next to their text. *)
Inductive error : Type :=
| errorString (s : string)
| libError (pkg : string) (s : string).

(** The [Error()] method. *)
Definition Error (e : error) : string :=
  match e with
  | errorString s => s
  | libError _ s => s
  end.

(** ** The fragment of [fmt] that the file uses *)

Module fmt.

(** An operand of a formatting call. *)
Inductive operand : Type :=
| str (s : string)
| err (e : error).

(** [%s] and [%v] print a string as its bytes and an error as the result
    of its [Error()] method. *)
Definition render (a : operand) : string :=
  match a with
  | str s => s
  | err e => Error e
  end.

(** [fmt.Sprintf] for the verbs [%s] and [%v].  A verb with no operand
    left prints [%!verb(MISSING)], as in Go; any other byte is copied. *)
Fixpoint Sprintf (format : string) (a : list operand) : string :=
  match format with
  | EmptyString => EmptyString
  | String "%" (String v rest as tl) =>
      if (Ascii.eqb v "s" || Ascii.eqb v "v")%bool then
        match a with
        | x :: a' => render x ++ Sprintf rest a'
        | [] => "%!" ++ String v "(MISSING)" ++ Sprintf rest []
        end
      else String "%" (Sprintf tl a)
  | String c rest => String c (Sprintf rest a)
  end.

(** [fmt.Errorf] (no [%w] in the format). *)
Definition Errorf (format : string) (a : list operand) : error :=
  errorString (Sprintf format a).

End fmt.

(** ** The error conditions

    The specification names the failures of a construction; the source
    tells them apart by their text only.  These are the error values the
    source builds for each of them. *)

Inductive Field : Type := FEndpoint | FAccessKey | FSecretKey.

Definition MissingField (f : Field) : error :=
  errorString
    match f with
    | FEndpoint => "endpoint is empty"
    | FAccessKey => "access key is empty"
    | FSecretKey => "secret key is empty"
    end.

Definition InvalidEndpoint (endpoint : string) (cause : error) : error :=
  errorString
    ("url parse endpoint [" ++ endpoint ++ "] failed, error is ["
       ++ Error cause ++ "]").

Definition TLSConfigError (cause : error) : error :=
  errorString ("build tls config failed, error is [" ++ Error cause ++ "]").

(** ** Constants of the package *)

Module time.
(** [time.Duration] counts nanoseconds in an [int64]. *)
Definition Nanosecond : Z := 1.
Definition Microsecond : Z := 1000 * Nanosecond.
Definition Millisecond : Z := 1000 * Microsecond.
Definition Second : Z := 1000 * Millisecond.
End time.

Definition defaultRegion : string := "us-east-1".
Definition httpTimeOut : Z := 200 * time.Second.
Definition maxRetries : Z := 5.

(** ** Data *)

(** [Config] contains the information required to initialise an agent. *)
Record Config : Type := mkConfig {
  AccessKey : string;
  SecretKey : string;
  Endpoint : string;
  RootCA : list byte
}.

(** ** The imported packages' data *)

Module http.
(** [http.Transport] and [http.Client], with the fields the file sets. *)
Record Transport (tlsConfig : Type) : Type := mkTransport {
  TLSClientConfig : tlsConfig
}.
Record Client (tlsConfig : Type) : Type := mkClient {
  Timeout : Z;
  Transport_ : Transport tlsConfig    (* the field [Transport] *)
}.
Arguments mkTransport {tlsConfig} _.
Arguments TLSClientConfig {tlsConfig} _.
Arguments mkClient {tlsConfig} _ _.
Arguments Timeout {tlsConfig} _.
Arguments Transport_ {tlsConfig} _.
End http.

Module credentials.
(** What [credentials.NewStaticCredentials] stores. *)
Record Credentials : Type := mkCredentials {
  AccessKeyID : string;
  SecretAccessKey : string;
  SessionToken : string
}.
Definition NewStaticCredentials (id secret token : string) : Credentials :=
  {| AccessKeyID := id; SecretAccessKey := secret; SessionToken := token |}.
End credentials.

Module aws.
(** [aws.Config]: every field is a pointer, nil until a [With...] method
    sets it.  Only the fields the file sets are kept. *)
Record Config (tlsConfig : Type) : Type := mkConfig {
  Region : option string;
  Credentials : option credentials.Credentials;
  Endpoint : option string;
  S3ForcePathStyle : option bool;
  MaxRetries : option Z;
  HTTPClient : option (http.Client tlsConfig)
}.
Arguments mkConfig {tlsConfig} _ _ _ _ _ _.
Arguments Region {tlsConfig} _.
Arguments Credentials {tlsConfig} _.
Arguments Endpoint {tlsConfig} _.
Arguments S3ForcePathStyle {tlsConfig} _.
Arguments MaxRetries {tlsConfig} _.
Arguments HTTPClient {tlsConfig} _.

Section Builder.
Context {tlsConfig : Type}.
#[local] Abbreviation Config := (Config tlsConfig).

Definition NewConfig : Config :=
  mkConfig None None None None None None.
Definition WithRegion (region : string) (c : Config) : Config :=
  mkConfig (Some region) (Credentials c) (Endpoint c)
           (S3ForcePathStyle c) (MaxRetries c) (HTTPClient c).
Definition WithCredentials (creds : credentials.Credentials) (c : Config)
  : Config :=
  mkConfig (Region c) (Some creds) (Endpoint c)
           (S3ForcePathStyle c) (MaxRetries c) (HTTPClient c).
Definition WithEndpoint (endpoint : string) (c : Config) : Config :=
  mkConfig (Region c) (Credentials c) (Some endpoint)
           (S3ForcePathStyle c) (MaxRetries c) (HTTPClient c).
Definition WithS3ForcePathStyle (force : bool) (c : Config) : Config :=
  mkConfig (Region c) (Credentials c) (Endpoint c)
           (Some force) (MaxRetries c) (HTTPClient c).
Definition WithMaxRetries (max : Z) (c : Config) : Config :=
  mkConfig (Region c) (Credentials c) (Endpoint c)
           (S3ForcePathStyle c) (Some max) (HTTPClient c).
Definition WithHTTPClient (client : http.Client tlsConfig) (c : Config)
  : Config :=
  mkConfig (Region c) (Credentials c) (Endpoint c)
           (S3ForcePathStyle c) (MaxRetries c) (Some client).
End Builder.
End aws.

(** [x |> f] is the method call [x.f()], so that a chain of [With...] calls
    reads in the order of the source. *)
Notation "x |> f" := (f x) (at level 45, left associativity, only parsing).

(** ** The imported packages

    [tls_Config], [url_URL], [session_Session] and [s3_S3] are the types
    [tls.Config], [url.URL], [session.Session] and [s3.S3]; the functions
    are [url.Parse], [utils.BuildTLSConfig], [session.NewSession] and
    [s3.New]. *)
Class Packages : Type := {
  tls_Config : Type;
  url_URL : Type;
  session_Session : Type;
  s3_S3 : Type;
  url_Parse : string -> url_URL + error;
  utils_BuildTLSConfig : list byte -> tls_Config + error;
  session_NewSession : aws.Config tls_Config -> session_Session + error;
  s3_New : session_Session -> s3_S3
}.

(** ** Doubles of the imported packages

    Small stand-ins for [net/url], [pkg/utils] and the SDK, used to run the
    agent on concrete configurations.  The sessions and clients they build
    are the configuration they were built from. *)

Module Fake.

Inductive tls_Config : Type :=
| SystemTrust
| TrustCA (ca : list byte).

Definition url_URL : Type := string.
Definition session_Session : Type := aws.Config tls_Config.
Definition s3_S3 : Type := session_Session.

(** The control bytes that [net/url] refuses: below the space, and DEL. *)
Definition isCTL (c : ascii) : bool :=
  (nat_of_ascii c <? 32)%nat || (nat_of_ascii c =? 127)%nat.

Fixpoint stringContainsCTLByte (s : string) : bool :=
  match s with
  | EmptyString => false
  | String c rest => isCTL c || stringContainsCTLByte rest
  end.

(** Refuses a string with a control byte, which is the first refusal of
    [net/url]; its other refusals are left out, and any other string is
    taken as it is. *)
Definition url_Parse (rawURL : string) : url_URL + error :=
  if stringContainsCTLByte rawURL then
    inr (libError "net/url" "net/url: invalid control character in URL")
  else inl rawURL.

Definition pemHeader : list byte :=
  list_byte_of_string "-----BEGIN CERTIFICATE-----".

Fixpoint hasPrefix (p l : list byte) : bool :=
  match p, l with
  | [], _ => true
  | _ :: _, [] => false
  | x :: p', y :: l' => Byte.eqb x y && hasPrefix p' l'
  end.

(** No bytes: the system's trust.  Bytes that open a PEM certificate
    block: trust them.  Anything else is refused. *)
Definition utils_BuildTLSConfig (rootCA : list byte) : tls_Config + error :=
  match rootCA with
  | [] => inl SystemTrust
  | _ :: _ =>
      if hasPrefix pemHeader rootCA then inl (TrustCA rootCA)
      else inr (libError "utils" "append ca cert failed")
  end.

(** An SDK whose environment lets a session open, and one whose
    environment does not. *)
Definition session_NewSession (c : aws.Config tls_Config)
  : session_Session + error := inl c.

Definition sessionDown : error :=
  libError "session" "failed to load the environment configuration".

Definition session_NewSession_down (c : aws.Config tls_Config)
  : session_Session + error := inr sessionDown.

Definition s3_New (s : session_Session) : s3_S3 := s.

Definition up : Packages :=
  Build_Packages tls_Config url_URL session_Session s3_S3
    url_Parse utils_BuildTLSConfig session_NewSession s3_New.

Definition down : Packages :=
  Build_Packages tls_Config url_URL session_Session s3_S3
    url_Parse utils_BuildTLSConfig session_NewSession_down s3_New.

End Fake.

(** ** The agent *)

Section Agent.

Context {P : Packages}.

(** [S3Agent] provides the S3 api. *)
Record S3Agent : Type := mkS3Agent {
  Client : s3_S3
}.

(** A call to one of the packages that build something. *)
Inductive Call : Type :=
| CallBuildTLSConfig (rootCA : list byte)
| CallNewSession (c : aws.Config tls_Config)
| CallS3New (s : session_Session).

(** The world a call runs in: the caller's configuration variable, and the
    calls made so far to the TLS builder and to the SDK, oldest first. *)
Record World : Type := mkWorld {
  caller_cfg : Config;
  calls : list Call
}.

(** Go code as a function of the world. *)
Definition M (A : Type) : Type := World -> A * World.

Definition ret {A : Type} (a : A) : M A := fun w => (a, w).

Definition bind {A B : Type} (m : M A) (k : A -> M B) : M B :=
  fun w => let (a, w') := m w in k a w'.

(** The world after the calls [tr] have been made in [w]. *)
Definition extend (w : World) (tr : list Call) : World :=
  {| caller_cfg := caller_cfg w; calls := calls w ++ tr |}.

Definition invoke (c : Call) : M unit := fun w => (tt, extend w [c]).

(** The calls that [m] makes when it runs in [w]. *)
Definition trace {A : Type} (m : M A) (w : World) : list Call :=
  skipn (length (calls w)) (calls (snd (m w))).

Notation "x <- m ;; k" := (bind m (fun x => k))
  (at level 61, m at next level, right associativity).
Notation "m ;; k" := (bind m (fun _ => k))
  (at level 61, right associativity).

(** The three calls, recorded as they are made. *)
Definition BuildTLSConfig (rootCA : list byte) : M (tls_Config + error) :=
  invoke (CallBuildTLSConfig rootCA) ;; ret (utils_BuildTLSConfig rootCA).

Definition NewSession (c : aws.Config tls_Config)
  : M (session_Session + error) :=
  invoke (CallNewSession c) ;; ret (session_NewSession c).

Definition New (s : session_Session) : M s3_S3 :=
  invoke (CallS3New s) ;; ret (s3_New s).

(** [validateConfig] validates the required fields of the [Config]. *)
Definition validateConfig (cfg : Config) : M (option error) :=
  if Endpoint cfg =? "" then
    ret (Some (fmt.Errorf "endpoint is empty" []))
  else
  match url_Parse (Endpoint cfg) with
  | inr err =>
      ret (Some (fmt.Errorf
                   "url parse endpoint [%s] failed, error is [%v]"
                   [fmt.str (Endpoint cfg); fmt.err err]))
  | inl _ =>
  if AccessKey cfg =? "" then
    ret (Some (fmt.Errorf "access key is empty" []))
  else
  if SecretKey cfg =? "" then
    ret (Some (fmt.Errorf "secret key is empty" []))
  else
    ret None
  end.

(** [NewS3Agent] returns a new s3 agent. *)
Definition NewS3Agent (cfg : Config) : M (option S3Agent * option error) :=
  err <- validateConfig cfg ;;
  match err with
  | Some err => ret (None, Some err)
  | None =>
  r <- BuildTLSConfig (RootCA cfg) ;;
  match r with
  | inr err =>
      ret (None,
           Some (fmt.Errorf "build tls config failed, error is [%v]"
                            [fmt.err err]))
  | inl tlsConfig =>
  let tr := {| http.TLSClientConfig := tlsConfig |} in
  let client := {| http.Timeout := httpTimeOut; http.Transport_ := tr |} in
  r <- NewSession
         (aws.NewConfig
            |> aws.WithRegion defaultRegion
            |> aws.WithCredentials
                 (credentials.NewStaticCredentials
                    (AccessKey cfg) (SecretKey cfg) "")
            |> aws.WithEndpoint (Endpoint cfg)
            |> aws.WithS3ForcePathStyle true
            |> aws.WithMaxRetries maxRetries
            |> aws.WithHTTPClient client) ;;
  match r with
  | inr err => ret (None, Some err)
  | inl s =>
      c <- New s ;;
      ret (Some {| Client := c |}, None)
  end
  end
  end.

(** The configuration [NewS3Agent] opens the session with, field by
    field. *)
Definition sessionConfig (cfg : Config) (tlsConfig : tls_Config)
  : aws.Config tls_Config :=
  {| aws.Region := Some "us-east-1";
     aws.Credentials :=
       Some {| credentials.AccessKeyID := AccessKey cfg;
               credentials.SecretAccessKey := SecretKey cfg;
               credentials.SessionToken := "" |};
     aws.Endpoint := Some (Endpoint cfg);
     aws.S3ForcePathStyle := Some true;
     aws.MaxRetries := Some 5%Z;
     aws.HTTPClient :=
       Some {| http.Timeout := 200000000000%Z;
               http.Transport_ := {| http.TLSClientConfig := tlsConfig |} |}
  |}.



(** The four ways a construction ends. *)
Inductive Outcome (cfg : Config) (w : World)
  : option S3Agent * option error -> list Call -> Prop :=
| Rejected e :
    fst (validateConfig cfg w) = Some e ->
    Outcome cfg w (None, Some e) []
| NoTLS cause :
    fst (validateConfig cfg w) = None ->
    utils_BuildTLSConfig (RootCA cfg) = inr cause ->
    Outcome cfg w (None, Some (TLSConfigError cause))
            [CallBuildTLSConfig (RootCA cfg)]
| NoSession tlsConfig e :
    fst (validateConfig cfg w) = None ->
    utils_BuildTLSConfig (RootCA cfg) = inl tlsConfig ->
    session_NewSession (sessionConfig cfg tlsConfig) = inr e ->
    Outcome cfg w (None, Some e)
            [CallBuildTLSConfig (RootCA cfg);
             CallNewSession (sessionConfig cfg tlsConfig)]
| Built tlsConfig s :
    fst (validateConfig cfg w) = None ->
    utils_BuildTLSConfig (RootCA cfg) = inl tlsConfig ->
    session_NewSession (sessionConfig cfg tlsConfig) = inl s ->
    Outcome cfg w (Some {| Client := s3_New s |}, None)
            [CallBuildTLSConfig (RootCA cfg);
             CallNewSession (sessionConfig cfg tlsConfig);
             CallS3New s].

(** The world of a caller that holds [cfg] and has called nothing yet. *)
Definition start (cfg : Config) : World :=
  {| caller_cfg := cfg; calls := [] |}.

(** The policy of the package: region, retries, addressing and timeout. *)
Definition fixed_policy (c : aws.Config tls_Config) : Prop :=
  aws.Region c = Some "us-east-1" /\
  aws.MaxRetries c = Some 5%Z /\
  aws.S3ForcePathStyle c = Some true /\
  exists client,
    aws.HTTPClient c = Some client /\
    http.Timeout client = (200 * 1000000000)%Z.

(** The field of the configuration that a [MissingField] error names. *)
Definition field_value (f : Field) (cfg : Config) : string :=
  match f with
  | FEndpoint => Endpoint cfg
  | FAccessKey => AccessKey cfg
  | FSecretKey => SecretKey cfg
  end.

(** The place of a call in the construction: the TLS builder, then the
    session, then the client. *)
Definition stage (c : Call) : nat :=
  match c with
  | CallBuildTLSConfig _ => 0
  | CallNewSession _ => 1
  | CallS3New _ => 2
  end.

End Agent.

(** ** Configurations to run the agent on *)

Module Scenario.

Definition endpoint : string := "https://s3.example.com".

(** The endpoint with a line feed left at its end. *)
Definition endpointLF : string := endpoint ++ String "010" "".

Definition valid : Config :=
  {| AccessKey := "AK"; SecretKey := "SK"; Endpoint := endpoint;
     RootCA := [] |}.

Definition noAccessKey (rootCA : list byte) : Config :=
  {| AccessKey := ""; SecretKey := "SK"; Endpoint := endpoint;
     RootCA := rootCA |}.

Definition noKeys : Config :=
  {| AccessKey := ""; SecretKey := ""; Endpoint := endpoint;
     RootCA := [] |}.

Definition noAccessKeyLF : Config :=
  {| AccessKey := ""; SecretKey := "SK"; Endpoint := endpointLF;
     RootCA := [] |}.

Definition validLF : Config :=
  {| AccessKey := "AK"; SecretKey := "SK"; Endpoint := endpointLF;
     RootCA := [] |}.


Definition badCA : Config :=
  {| AccessKey := "AK"; SecretKey := "SK"; Endpoint := endpoint;
     RootCA := list_byte_of_string "not a certificate" |}.

(** A configuration that comes with a root certificate. *)
Definition withCA : Config :=
  {| AccessKey := "AK"; SecretKey := "SK"; Endpoint := endpoint;
     RootCA := list_byte_of_string "-----BEGIN CERTIFICATE-----MIIB" |}.

Definition noSecretKey : Config :=
  {| AccessKey := "AK"; SecretKey := ""; Endpoint := endpoint;
     RootCA := [] |}.

(** [badCA] with other keys and another endpoint. *)
Definition badCA2 : Config :=
  {| AccessKey := "AK2"; SecretKey := "SK2";
     Endpoint := "http://10.0.0.1:9000";
     RootCA := list_byte_of_string "not a certificate" |}.

End Scenario.

Section Properties.

Context {P : Packages}.

Lemma skipn_length_app (A : Type) (l t : list A) :
  skipn (length l) (l ++ t) = t.
Proof.
  induction l as [|x l IH]; simpl; [reflexivity | exact IH].
Qed.

Lemma extend_nil (w : World) : extend w [] = w.
Proof.
  destruct w as [c l]. unfold extend. simpl. now rewrite app_nil_r.
Qed.

Lemma extend_extend (w : World) (t1 t2 : list Call) :
  extend (extend w t1) t2 = extend w (t1 ++ t2).
Proof.
  unfold extend. simpl. now rewrite app_assoc.
Qed.

Lemma calls_extend (w : World) (tr : list Call) :
  skipn (length (calls w)) (calls (extend w tr)) = tr.
Proof.
  unfold extend. simpl. apply skipn_length_app.
Qed.

(** [validateConfig] computes its answer from the configuration alone
    and leaves the world as it found it. *)
Lemma validateConfig_run (cfg : Config) (w : World) :
  validateConfig cfg w = (fst (validateConfig cfg w), w).
Proof.
  unfold validateConfig.
  destruct (Endpoint cfg =? ""); [reflexivity|].
  destruct (url_Parse (Endpoint cfg)); [|reflexivity].
  destruct (AccessKey cfg =? ""); [reflexivity|].
  destruct (SecretKey cfg =? ""); reflexivity.
Qed.

(** What [validateConfig] answers, check by check. *)
Lemma validateConfig_endpoint_empty (cfg : Config) (w : World) :
  Endpoint cfg = "" ->
  fst (validateConfig cfg w) = Some (MissingField FEndpoint).
Proof.
  intros H. unfold validateConfig. rewrite H. reflexivity.
Qed.

Lemma validateConfig_endpoint_invalid (cfg : Config) (w : World) cause :
  Endpoint cfg <> "" -> url_Parse (Endpoint cfg) = inr cause ->
  fst (validateConfig cfg w) = Some (InvalidEndpoint (Endpoint cfg) cause).
Proof.
  intros Hne Hp. unfold validateConfig.
  destruct (String.eqb_spec (Endpoint cfg) ""); [contradiction|].
  rewrite Hp. reflexivity.
Qed.

Lemma validateConfig_access_empty (cfg : Config) (w : World) u :
  Endpoint cfg <> "" -> url_Parse (Endpoint cfg) = inl u ->
  AccessKey cfg = "" ->
  fst (validateConfig cfg w) = Some (MissingField FAccessKey).
Proof.
  intros Hne Hp Ha. unfold validateConfig.
  destruct (String.eqb_spec (Endpoint cfg) ""); [contradiction|].
  rewrite Hp, Ha. reflexivity.
Qed.

Lemma validateConfig_secret_empty (cfg : Config) (w : World) u :
  Endpoint cfg <> "" -> url_Parse (Endpoint cfg) = inl u ->
  AccessKey cfg <> "" -> SecretKey cfg = "" ->
  fst (validateConfig cfg w) = Some (MissingField FSecretKey).
Proof.
  intros Hne Hp Ha Hs. unfold validateConfig.
  destruct (String.eqb_spec (Endpoint cfg) ""); [contradiction|].
  rewrite Hp.
  destruct (String.eqb_spec (AccessKey cfg) ""); [contradiction|].
  rewrite Hs. reflexivity.
Qed.

Lemma validateConfig_pass (cfg : Config) (w : World) u :
  Endpoint cfg <> "" -> url_Parse (Endpoint cfg) = inl u ->
  AccessKey cfg <> "" -> SecretKey cfg <> "" ->
  fst (validateConfig cfg w) = None.
Proof.
  intros Hne Hp Ha Hs. unfold validateConfig.
  destruct (String.eqb_spec (Endpoint cfg) ""); [contradiction|].
  rewrite Hp.
  destruct (String.eqb_spec (AccessKey cfg) ""); [contradiction|].
  destruct (String.eqb_spec (SecretKey cfg) ""); [contradiction|].
  reflexivity.
Qed.

(** The chain of [With...] calls builds [sessionConfig]. *)
Lemma sessionConfig_chain (cfg : Config) (tlsConfig : tls_Config) :
  aws.NewConfig
    |> aws.WithRegion defaultRegion
    |> aws.WithCredentials
         (credentials.NewStaticCredentials
            (AccessKey cfg) (SecretKey cfg) "")
    |> aws.WithEndpoint (Endpoint cfg)
    |> aws.WithS3ForcePathStyle true
    |> aws.WithMaxRetries maxRetries
    |> aws.WithHTTPClient
         {| http.Timeout := httpTimeOut;
            http.Transport_ := {| http.TLSClientConfig := tlsConfig |} |}
  = sessionConfig cfg tlsConfig.
Proof. reflexivity. Qed.

Lemma NewS3Agent_run (cfg : Config) (w : World) :
  exists r tr, NewS3Agent cfg w = (r, extend w tr) /\ Outcome cfg w r tr.
Proof.
  unfold NewS3Agent, bind.
  rewrite (validateConfig_run cfg w).
  destruct (fst (validateConfig cfg w)) as [e|] eqn:Hv.
  - exists (None, Some e), []. rewrite extend_nil.
    split; [reflexivity | now constructor].
  - unfold BuildTLSConfig, NewSession, New, bind, invoke, ret.
    destruct (utils_BuildTLSConfig (RootCA cfg)) as [t|cause] eqn:Ht.
    + cbv zeta. rewrite sessionConfig_chain.
      destruct (session_NewSession (sessionConfig cfg t)) as [s|e] eqn:Hs.
      * eexists _, _. rewrite !extend_extend.
        split; [reflexivity | now apply Built with (tlsConfig := t)].
      * eexists _, _. rewrite !extend_extend.
        split; [reflexivity | now apply NoSession].
    + eexists _, _. split; [reflexivity | now apply NoTLS].
Qed.

Lemma NewS3Agent_trace (cfg : Config) (w : World) r tr :
  NewS3Agent cfg w = (r, extend w tr) ->
  fst (NewS3Agent cfg w) = r /\ trace (NewS3Agent cfg) w = tr.
Proof.
  intros H. unfold trace. rewrite H. simpl fst. simpl snd.
  split; [reflexivity | apply calls_extend].
Qed.

(** Every run is one of the four outcomes. *)
Lemma NewS3Agent_outcome (cfg : Config) (w : World) :
  Outcome cfg w (fst (NewS3Agent cfg w)) (trace (NewS3Agent cfg) w).
Proof.
  destruct (NewS3Agent_run cfg w) as (r & tr & Hrun & Ho).
  destruct (NewS3Agent_trace _ _ _ _ Hrun) as [-> ->]. exact Ho.
Qed.

(** *** Rejections *)

(** C1 (as amended).  A configuration whose endpoint, access key or
    secret key is empty, and whose endpoint, when it is not empty, parses
    as a URL, is refused with a [MissingField] error and no handle, and
    neither the TLS builder nor the SDK is called. *)
Theorem missing_field_rejected (cfg : Config) (w : World) :
  Endpoint cfg = "" \/ AccessKey cfg = "" \/ SecretKey cfg = "" ->
  Endpoint cfg = "" \/ (exists u, url_Parse (Endpoint cfg) = inl u) ->
  exists f,
    fst (NewS3Agent cfg w) = (None, Some (MissingField f)) /\
    trace (NewS3Agent cfg) w = [].
Proof.
  intros Hempty Hurl.
  assert (exists f, fst (validateConfig cfg w) = Some (MissingField f))
    as [f Hf].
  { destruct (String.eqb_spec (Endpoint cfg) "") as [He|He].
    - exists FEndpoint. now apply validateConfig_endpoint_empty.
    - destruct Hurl as [|[u Hu]]; [contradiction|].
      destruct (String.eqb_spec (AccessKey cfg) "") as [Ha|Ha].
      + exists FAccessKey. now apply validateConfig_access_empty with u.
      + destruct Hempty as [|[|Hs]]; try contradiction.
        exists FSecretKey. now apply validateConfig_secret_empty with u. }
  exists f.
  destruct (NewS3Agent_outcome cfg w) as [e He| | |]; try congruence.
  split; [|reflexivity]. congruence.
Qed.

(** C2.  A configuration whose endpoint is not empty and does not parse
    as a URL is refused with an [InvalidEndpoint] error and no handle. *)
Theorem unparsable_endpoint_rejected (cfg : Config) (w : World) cause :
  Endpoint cfg <> "" ->
  url_Parse (Endpoint cfg) = inr cause ->
  fst (NewS3Agent cfg w)
  = (None, Some (InvalidEndpoint (Endpoint cfg) cause)).
Proof.
  intros Hne Hp.
  pose proof (validateConfig_endpoint_invalid cfg w cause Hne Hp) as Hv.
  destruct (NewS3Agent_outcome cfg w); congruence.
Qed.

(** C7.  The configuration with an empty access key, the secret key
    ["SK"] and the endpoint ["https://s3.example.com"] is refused with
    the [MissingField] error of the access key. *)
Theorem empty_access_key_scenario (rootCA : list byte) (w : World) u :
  url_Parse "https://s3.example.com" = inl u ->
  fst (NewS3Agent (Scenario.noAccessKey rootCA) w)
  = (None, Some (MissingField FAccessKey)).
Proof.
  intros Hu.
  assert (fst (validateConfig (Scenario.noAccessKey rootCA) w)
          = Some (MissingField FAccessKey)) as Hv.
  { apply validateConfig_access_empty with u;
      [discriminate | exact Hu | reflexivity]. }
  destruct (NewS3Agent_outcome (Scenario.noAccessKey rootCA) w);
    congruence.
Qed.

(** C9.  The checks of the validation run in the order endpoint empty,
    endpoint unparsable, access key empty, secret key empty, and the
    first that fails gives the error; so an empty endpoint wins over an
    empty access key, and an empty access key over an empty secret
    key. *)
Theorem validation_order (cfg : Config) (w : World) :
  (Endpoint cfg = "" ->
   fst (validateConfig cfg w) = Some (MissingField FEndpoint)) /\
  (forall cause,
     Endpoint cfg <> "" -> url_Parse (Endpoint cfg) = inr cause ->
     fst (validateConfig cfg w)
     = Some (InvalidEndpoint (Endpoint cfg) cause)) /\
  (forall u,
     Endpoint cfg <> "" -> url_Parse (Endpoint cfg) = inl u ->
     AccessKey cfg = "" ->
     fst (validateConfig cfg w) = Some (MissingField FAccessKey)) /\
  (forall u,
     Endpoint cfg <> "" -> url_Parse (Endpoint cfg) = inl u ->
     AccessKey cfg <> "" -> SecretKey cfg = "" ->
     fst (validateConfig cfg w) = Some (MissingField FSecretKey)) /\
  (forall u,
     Endpoint cfg <> "" -> url_Parse (Endpoint cfg) = inl u ->
     AccessKey cfg <> "" -> SecretKey cfg <> "" ->
     fst (validateConfig cfg w) = None) /\
  (Endpoint cfg = "" -> AccessKey cfg = "" ->
   fst (NewS3Agent cfg w) = (None, Some (MissingField FEndpoint))) /\
  (forall u,
     Endpoint cfg <> "" -> url_Parse (Endpoint cfg) = inl u ->
     AccessKey cfg = "" -> SecretKey cfg = "" ->
     fst (NewS3Agent cfg w) = (None, Some (MissingField FAccessKey))).
Proof.
  repeat split.
  - apply validateConfig_endpoint_empty.
  - intros cause. apply validateConfig_endpoint_invalid.
  - intros u. apply validateConfig_access_empty.
  - intros u. apply validateConfig_secret_empty.
  - intros u. apply validateConfig_pass.
  - intros He _.
    pose proof (validateConfig_endpoint_empty cfg w He) as Hv.
    destruct (NewS3Agent_outcome cfg w); congruence.
  - intros u Hne Hu Ha _.
    pose proof (validateConfig_access_empty cfg w u Hne Hu Ha) as Hv.
    destruct (NewS3Agent_outcome cfg w); congruence.
Qed.


(** *** Construction *)

(** C3 (as amended).  For a configuration with both keys, an endpoint
    that is not empty and parses as a URL, and no root certificate, when
    the TLS builder accepts the absent certificate and the session
    opens, the construction returns a handle on the client made from
    that session, with no error; the session was opened with the
    caller's endpoint and with path-style addressing forced. *)
Theorem valid_config_builds_agent
    (cfg : Config) (w : World) u tlsConfig s :
  AccessKey cfg <> "" -> SecretKey cfg <> "" -> Endpoint cfg <> "" ->
  url_Parse (Endpoint cfg) = inl u ->
  RootCA cfg = [] ->
  utils_BuildTLSConfig [] = inl tlsConfig ->
  session_NewSession (sessionConfig cfg tlsConfig) = inl s ->
  fst (NewS3Agent cfg w) = (Some {| Client := s3_New s |}, None) /\
  trace (NewS3Agent cfg) w
  = [CallBuildTLSConfig [];
     CallNewSession (sessionConfig cfg tlsConfig);
     CallS3New s] /\
  aws.Endpoint (sessionConfig cfg tlsConfig) = Some (Endpoint cfg) /\
  aws.S3ForcePathStyle (sessionConfig cfg tlsConfig) = Some true.
Proof.
  intros Ha Hs He Hu Hca Htls Hsess.
  pose proof (validateConfig_pass cfg w u He Hu Ha Hs) as Hv.
  destruct (NewS3Agent_outcome cfg w) as [e H|c H Ht|t e H Ht Hn|t s' H Ht Hn];
    try rewrite Hca in Ht; try congruence.
  assert (t = tlsConfig) by congruence. subst t.
  assert (s' = s) by congruence. subst s'.
  rewrite Hca. repeat split; reflexivity.
Qed.



(** C6.  Whatever the configuration, a session that the construction
    opens has the region ["us-east-1"], 5 retries at most, path-style
    addressing forced and an HTTP client with a timeout of 200 seconds;
    and a construction that returns a handle has opened a session. *)
Theorem policy_constants_fixed (cfg : Config) (w : World) :
  (forall c,
     In (CallNewSession c) (trace (NewS3Agent cfg) w) -> fixed_policy c) /\
  (forall h,
     fst (fst (NewS3Agent cfg w)) = Some h ->
     exists c, In (CallNewSession c) (trace (NewS3Agent cfg) w)) /\
  httpTimeOut = (200 * 1000000000)%Z.
Proof.
  assert (forall t, fixed_policy (sessionConfig cfg t)) as Hpol.
  { intros t. unfold fixed_policy, sessionConfig. simpl.
    repeat split. eexists. split; reflexivity. }
  split; [|split; [|reflexivity]].
  - intros c Hin.
    destruct (NewS3Agent_outcome cfg w) as [e H|c' H Ht|t e H Ht Hn|t s H Ht Hn];
      simpl in Hin.
    + contradiction.
    + destruct Hin as [|[]]; discriminate.
    + destruct Hin as [|[[= <-]|[]]]; [discriminate | apply Hpol].
    + destruct Hin as [|[[= <-]|[|[]]]];
        [discriminate | apply Hpol | discriminate].
  - intros h Hh.
    destruct (NewS3Agent_outcome cfg w) as [e H|c' H Ht|t e H Ht Hn|t s H Ht Hn];
      simpl in Hh; try discriminate.
    exists (sessionConfig cfg t). simpl. auto.
Qed.

End Properties.

(** ** Further properties of the construction *)

Section Coverage.

Context {P : Packages}.

Lemma validateConfig_accepted (cfg : Config) (w : World) :
  fst (validateConfig cfg w) = None ->
  Endpoint cfg <> "" /\
  (exists u, url_Parse (Endpoint cfg) = inl u) /\
  AccessKey cfg <> "" /\ SecretKey cfg <> "".
Proof.
  unfold validateConfig.
  destruct (String.eqb_spec (Endpoint cfg) ""); [discriminate|].
  destruct (url_Parse (Endpoint cfg)) as [u|cause]; [|discriminate].
  destruct (String.eqb_spec (AccessKey cfg) ""); [discriminate|].
  destruct (String.eqb_spec (SecretKey cfg) ""); [discriminate|].
  intros _. repeat split; try assumption. now exists u.
Qed.

Lemma session_call_inv (cfg : Config) (w : World) c :
  In (CallNewSession c) (trace (NewS3Agent cfg) w) ->
  fst (validateConfig cfg w) = None /\
  exists t, utils_BuildTLSConfig (RootCA cfg) = inl t /\
            c = sessionConfig cfg t.
Proof.
  intros Hin.
  destruct (NewS3Agent_outcome cfg w) as [e H|c' H Ht|t e H Ht Hn|t s H Ht Hn];
    simpl in Hin.
  - contradiction.
  - destruct Hin as [|[]]; discriminate.
  - destruct Hin as [|[[= <-]|[]]]; [discriminate|].
    split; [exact H | now exists t].
  - destruct Hin as [|[[= <-]|[|[]]]]; try discriminate.
    split; [exact H | now exists t].
Qed.

(** X1.  A construction returns a handle or an error, never both and
    never neither. *)
Theorem handle_xor_error (cfg : Config) (w : World) :
  fst (fst (NewS3Agent cfg w)) = None <->
  snd (fst (NewS3Agent cfg w)) <> None.
Proof.
  destruct (NewS3Agent_outcome cfg w); simpl; split;
    intros H'; try discriminate; try reflexivity; now contradiction H'.
Qed.

(** X2.  The validation accepts a configuration exactly when its endpoint
    is not empty and parses as a URL and both keys are not empty. *)
Theorem validation_accepts_iff (cfg : Config) (w : World) :
  fst (validateConfig cfg w) = None <->
  Endpoint cfg <> "" /\
  (exists u, url_Parse (Endpoint cfg) = inl u) /\
  AccessKey cfg <> "" /\ SecretKey cfg <> "".
Proof.
  split.
  - apply validateConfig_accepted.
  - intros (He & [u Hu] & Ha & Hs). now apply validateConfig_pass with u.
Qed.

(** X3.  An error of the validation is returned as it is, with no handle,
    and the construction stops there: the world is the one it started
    in, no call having been made. *)
Theorem validation_error_propagated (cfg : Config) (w : World) e :
  fst (validateConfig cfg w) = Some e ->
  NewS3Agent cfg w = ((None, Some e), w).
Proof.
  intros Hv.
  destruct (NewS3Agent_run cfg w) as (r & tr & Hrun & Ho).
  destruct Ho; try congruence.
  rewrite Hrun, extend_nil. congruence.
Qed.

(** X4.  A construction returns a handle exactly when the validation
    passes, the TLS builder accepts the root certificate of the
    configuration, absent or not, and the session opens; the handle then
    holds the client made from that session. *)
Theorem construction_succeeds_iff (cfg : Config) (w : World) h :
  fst (NewS3Agent cfg w) = (Some h, None) <->
  fst (validateConfig cfg w) = None /\
  exists t s,
    utils_BuildTLSConfig (RootCA cfg) = inl t /\
    session_NewSession (sessionConfig cfg t) = inl s /\
    h = {| Client := s3_New s |}.
Proof.
  split.
  - intros Hr.
    destruct (NewS3Agent_outcome cfg w) as [e H|c' H Ht|t e H Ht Hn|t s H Ht Hn];
      try discriminate.
    split; [exact H|]. exists t, s. repeat split; congruence.
  - intros (Hv & t & s & Ht & Hs & ->).
    destruct (NewS3Agent_outcome cfg w) as [e H|c' H Ht'|t' e H Ht' Hn|t' s' H Ht' Hn];
      congruence.
Qed.

(** X5.  Every error of a construction is of one of four kinds: a
    [MissingField] error, the [InvalidEndpoint] error of the parser's
    refusal of the endpoint, the [TLSConfigError] of the builder's refusal
    of the root certificate, or the error of the session-opening call. *)
Theorem error_taxonomy (cfg : Config) (w : World) e :
  snd (fst (NewS3Agent cfg w)) = Some e ->
  (exists f, e = MissingField f /\ field_value f cfg = "") \/
  (exists cause,
     url_Parse (Endpoint cfg) = inr cause /\
     e = InvalidEndpoint (Endpoint cfg) cause) \/
  (exists cause,
     utils_BuildTLSConfig (RootCA cfg) = inr cause /\
     e = TLSConfigError cause) \/
  (exists t,
     utils_BuildTLSConfig (RootCA cfg) = inl t /\
     session_NewSession (sessionConfig cfg t) = inr e).
Proof.
  intros He.
  destruct (NewS3Agent_outcome cfg w) as [e' H|c' H Ht|t e' H Ht Hn|t s H Ht Hn];
    simpl in He; try discriminate; injection He as <-.
  - revert H. unfold validateConfig.
    destruct (String.eqb_spec (Endpoint cfg) "") as [Hep|Hep].
    { intros [= <-]. left. now exists FEndpoint. }
    destruct (url_Parse (Endpoint cfg)) as [u|cause].
    2:{ intros [= <-]. right. left. now exists cause. }
    destruct (String.eqb_spec (AccessKey cfg) "") as [Ha|Ha].
    { intros [= <-]. left. now exists FAccessKey. }
    destruct (String.eqb_spec (SecretKey cfg) "") as [Hs|Hs].
    { intros [= <-]. left. now exists FSecretKey. }
    discriminate.
  - right. right. left. now exists c'.
  - right. right. right. now exists t.
Qed.

(** X6.  A [MissingField] error of the validation tells the truth: the
    field it names is empty, and the checks that come before that field's
    have passed. *)
Theorem missing_field_truthful (cfg : Config) (w : World) f :
  fst (validateConfig cfg w) = Some (MissingField f) ->
  field_value f cfg = "" /\
  (f <> FEndpoint ->
   Endpoint cfg <> "" /\ exists u, url_Parse (Endpoint cfg) = inl u) /\
  (f = FSecretKey -> AccessKey cfg <> "").
Proof.
  unfold validateConfig.
  destruct (String.eqb_spec (Endpoint cfg) "") as [Hep|Hep].
  { destruct f; intros [= ].
    repeat split; intros; [exact Hep | congruence ..]. }
  destruct (url_Parse (Endpoint cfg)) as [u|cause].
  2:{ destruct f; intros [= ]. }
  destruct (String.eqb_spec (AccessKey cfg) "") as [Ha|Ha].
  { destruct f; intros [= ].
    repeat split; intros; [exact Ha | exact Hep | now exists u | congruence]. }
  destruct (String.eqb_spec (SecretKey cfg) "") as [Hs|Hs].
  { destruct f; intros [= ].
    repeat split; intros; [exact Hs | exact Hep | now exists u | exact Ha]. }
  discriminate.
Qed.

(** X7.  No session is opened on a configuration that the validation
    would refuse: the credentials of an opened session have an access key
    and a secret key that are not empty, and its endpoint is not empty
    and parses as a URL. *)
Theorem session_opened_on_valid_fields (cfg : Config) (w : World) c :
  In (CallNewSession c) (trace (NewS3Agent cfg) w) ->
  exists creds ep u,
    aws.Credentials c = Some creds /\
    credentials.AccessKeyID creds <> "" /\
    credentials.SecretAccessKey creds <> "" /\
    aws.Endpoint c = Some ep /\ ep <> "" /\ url_Parse ep = inl u.
Proof.
  intros Hin.
  destruct (session_call_inv cfg w c Hin) as (Hv & t & _ & ->).
  destruct (validateConfig_accepted cfg w Hv) as (He & [u Hu] & Ha & Hs).
  eexists _, _, u. simpl. repeat split; eauto.
Qed.

(** X8.  A session is opened with the keys of the configuration as static
    credentials, with no session token, with the endpoint of the
    configuration, and with an HTTP client whose transport has the TLS
    configuration that the builder made from the root certificate of the
    configuration. *)
Theorem session_carries_config (cfg : Config) (w : World) c :
  In (CallNewSession c) (trace (NewS3Agent cfg) w) ->
  aws.Credentials c
  = Some {| credentials.AccessKeyID := AccessKey cfg;
            credentials.SecretAccessKey := SecretKey cfg;
            credentials.SessionToken := "" |} /\
  aws.Endpoint c = Some (Endpoint cfg) /\
  exists t client,
    utils_BuildTLSConfig (RootCA cfg) = inl t /\
    aws.HTTPClient c = Some client /\
    http.TLSClientConfig (http.Transport_ client) = t.
Proof.
  intros Hin.
  destruct (session_call_inv cfg w c Hin) as (_ & t & Ht & ->).
  split; [reflexivity|]. split; [reflexivity|].
  exists t. eexists. split; [exact Ht|]. split; reflexivity.
Qed.

(** X9.  The TLS builder is called exactly when the validation passes; it
    is then the first call, and what it is given is the root certificate
    of the configuration. *)
Theorem tls_builder_called_iff_valid (cfg : Config) (w : World) :
  (forall rootCA,
     In (CallBuildTLSConfig rootCA) (trace (NewS3Agent cfg) w) ->
     rootCA = RootCA cfg /\ fst (validateConfig cfg w) = None) /\
  (fst (validateConfig cfg w) = None ->
   hd_error (trace (NewS3Agent cfg) w)
   = Some (CallBuildTLSConfig (RootCA cfg))).
Proof.
  split.
  - intros ca Hin.
    destruct (NewS3Agent_outcome cfg w) as [e H|c' H Ht|t e H Ht Hn|t s H Ht Hn];
      simpl in Hin.
    + contradiction.
    + destruct Hin as [[= <-]|[]]. now split.
    + destruct Hin as [[= <-]|[|[]]]; [now split | discriminate].
    + destruct Hin as [[= <-]|[|[|[]]]]; [now split | discriminate ..].
  - intros Hv.
    destruct (NewS3Agent_outcome cfg w); [congruence | reflexivity ..].
Qed.

(** X10.  The client is made only for a handle: when [s3.New] is called
    on a session, the construction returns the handle of the client made
    from it and no error; and a returned handle holds the client of a
    session on which [s3.New] was called, which is the last call. *)
Theorem client_built_for_handle (cfg : Config) (w : World) :
  (forall s,
     In (CallS3New s) (trace (NewS3Agent cfg) w) ->
     fst (NewS3Agent cfg w) = (Some {| Client := s3_New s |}, None)) /\
  (forall h,
     fst (fst (NewS3Agent cfg w)) = Some h ->
     exists s,
       Client h = s3_New s /\
       last (trace (NewS3Agent cfg) w) (CallBuildTLSConfig [])
       = CallS3New s).
Proof.
  split.
  - intros s0 Hin.
    destruct (NewS3Agent_outcome cfg w) as [e H|c' H Ht|t e H Ht Hn|t s H Ht Hn];
      simpl in Hin.
    + contradiction.
    + destruct Hin as [|[]]; discriminate.
    + destruct Hin as [|[|[]]]; discriminate.
    + destruct Hin as [|[|[[= <-]|[]]]]; try discriminate. reflexivity.
  - intros h Hh.
    destruct (NewS3Agent_outcome cfg w) as [e H|c' H Ht|t e H Ht Hn|t s H Ht Hn];
      simpl in Hh; try discriminate.
    injection Hh as <-. exists s. split; reflexivity.
Qed.

(** X11.  The calls of a construction follow the order TLS builder,
    session, client, each made once at most and none made unless the one
    before it was: the construction stops at the first failure. *)
Theorem calls_in_pipeline_order (cfg : Config) (w : World) :
  map stage (trace (NewS3Agent cfg) w)
  = seq 0 (length (trace (NewS3Agent cfg) w)) /\
  length (trace (NewS3Agent cfg) w) <= 3.
Proof.
  destruct (NewS3Agent_outcome cfg w); simpl;
    (split; [reflexivity | repeat constructor]).
Qed.

(** X12.  The error of a refused root certificate depends on the
    certificate alone: two configurations that pass the validation and
    have the same root certificate get the same error, whatever their
    keys and endpoints. *)
Theorem tls_error_hides_keys (c1 c2 : Config) (w1 w2 : World) cause :
  RootCA c1 = RootCA c2 ->
  fst (validateConfig c1 w1) = None ->
  fst (validateConfig c2 w2) = None ->
  utils_BuildTLSConfig (RootCA c1) = inr cause ->
  fst (NewS3Agent c1 w1) = (None, Some (TLSConfigError cause)) /\
  fst (NewS3Agent c2 w2) = (None, Some (TLSConfigError cause)).
Proof.
  intros Hca Hv1 Hv2 Hfail.
  split.
  - destruct (NewS3Agent_outcome c1 w1); congruence.
  - rewrite Hca in Hfail.
    destruct (NewS3Agent_outcome c2 w2); congruence.
Qed.

End Coverage.

(** ** The theorems at work on the doubles *)

Section Runs.

#[local] Abbreviation up := Fake.up.
#[local] Abbreviation down := Fake.down.

(** A missing access key behind an endpoint that ends in a line feed: the
    parser's refusal comes first, and the error is not a [MissingField]
    one although a key is empty. *)
Lemma missing_key_behind_bad_endpoint :
  AccessKey Scenario.noAccessKeyLF = "" /\
  fst (NewS3Agent (P := up) Scenario.noAccessKeyLF
         (start Scenario.noAccessKeyLF))
  = (None,
     Some (InvalidEndpoint Scenario.endpointLF
             (libError "net/url"
                "net/url: invalid control character in URL"))) /\
  forall f,
    fst (NewS3Agent (P := up) Scenario.noAccessKeyLF
           (start Scenario.noAccessKeyLF))
    <> (None, Some (MissingField f)).
Proof.
  split; [reflexivity|]. split; [reflexivity|].
  intros f. destruct f; vm_compute; discriminate.
Qed.

Lemma missing_field_rejected_witness :
  (Endpoint (Scenario.noAccessKey []) = "" \/
   AccessKey (Scenario.noAccessKey []) = "" \/
   SecretKey (Scenario.noAccessKey []) = "") /\
  (Endpoint (Scenario.noAccessKey []) = "" \/
   exists u, url_Parse (Packages := up)
               (Endpoint (Scenario.noAccessKey [])) = inl u) /\
  exists f,
    fst (NewS3Agent (P := up) (Scenario.noAccessKey [])
           (start (Scenario.noAccessKey [])))
    = (None, Some (MissingField f)) /\
    trace (NewS3Agent (P := up) (Scenario.noAccessKey []))
          (start (Scenario.noAccessKey [])) = [].
Proof.
  assert (Endpoint (Scenario.noAccessKey []) = "" \/
          AccessKey (Scenario.noAccessKey []) = "" \/
          SecretKey (Scenario.noAccessKey []) = "") as H1.
  { right. left. reflexivity. }
  assert (Endpoint (Scenario.noAccessKey []) = "" \/
          exists u, url_Parse (Packages := up)
                      (Endpoint (Scenario.noAccessKey [])) = inl u) as H2.
  { right. eexists. reflexivity. }
  split; [exact H1|]. split; [exact H2|].
  exact (missing_field_rejected (P := up) (Scenario.noAccessKey [])
           (start (Scenario.noAccessKey [])) H1 H2).
Defined.

Lemma unparsable_endpoint_rejected_witness :
  Endpoint Scenario.validLF <> "" /\
  url_Parse (Packages := up) (Endpoint Scenario.validLF)
  = inr (libError "net/url" "net/url: invalid control character in URL") /\
  fst (NewS3Agent (P := up) Scenario.validLF (start Scenario.validLF))
  = (None,
     Some (InvalidEndpoint (Endpoint Scenario.validLF)
             (libError "net/url"
                "net/url: invalid control character in URL"))).
Proof.
  assert (Endpoint Scenario.validLF <> "") as H1 by discriminate.
  assert (url_Parse (Packages := up) (Endpoint Scenario.validLF)
          = inr (libError "net/url"
                   "net/url: invalid control character in URL")) as H2
    by reflexivity.
  split; [exact H1|]. split; [exact H2|].
  exact (unparsable_endpoint_rejected (P := up) Scenario.validLF
           (start Scenario.validLF) _ H1 H2).
Defined.

Lemma empty_access_key_scenario_witness :
  url_Parse (Packages := up) "https://s3.example.com"
  = inl "https://s3.example.com" /\
  fst (NewS3Agent (P := up) (Scenario.noAccessKey [])
         (start (Scenario.noAccessKey [])))
  = (None, Some (errorString "access key is empty")).
Proof.
  assert (url_Parse (Packages := up) "https://s3.example.com"
          = inl "https://s3.example.com") as H1 by reflexivity.
  split; [exact H1|].
  exact (empty_access_key_scenario (P := up) []
           (start (Scenario.noAccessKey [])) _ H1).
Defined.

Lemma validation_order_witness :
  fst (NewS3Agent (P := up) Scenario.noKeys (start Scenario.noKeys))
  = (None, Some (MissingField FAccessKey)).
Proof.
  refine (proj2 (proj2 (proj2 (proj2 (proj2 (proj2
            (validation_order (P := up) Scenario.noKeys
               (start Scenario.noKeys)))))))
            "https://s3.example.com" _ _ _ _);
    [discriminate | reflexivity | reflexivity | reflexivity].
Defined.


(** A complete configuration in an environment where no session opens:
    every field is as it should be, and yet there is no handle. *)
Lemma valid_config_session_down :
  AccessKey Scenario.valid <> "" /\
  SecretKey Scenario.valid <> "" /\
  Endpoint Scenario.valid <> "" /\
  url_Parse (Packages := down) (Endpoint Scenario.valid)
  = inl Scenario.endpoint /\
  RootCA Scenario.valid = [] /\
  fst (NewS3Agent (P := down) Scenario.valid (start Scenario.valid))
  = (None, Some Fake.sessionDown).
Proof.
  repeat split; try discriminate; reflexivity.
Qed.

Lemma valid_config_builds_agent_witness :
  fst (NewS3Agent (P := up) Scenario.valid (start Scenario.valid))
  = (Some {| Client :=
               s3_New (Packages := up)
                 (sessionConfig (P := up) Scenario.valid Fake.SystemTrust) |},
     None) /\
  aws.Endpoint (sessionConfig (P := up) Scenario.valid Fake.SystemTrust)
  = Some "https://s3.example.com" /\
  aws.S3ForcePathStyle
    (sessionConfig (P := up) Scenario.valid Fake.SystemTrust)
  = Some true.
Proof.
  destruct (valid_config_builds_agent (P := up) Scenario.valid
              (start Scenario.valid) Scenario.endpoint Fake.SystemTrust
              (sessionConfig (P := up) Scenario.valid Fake.SystemTrust))
    as (Hr & _ & He & Hp);
    [discriminate | discriminate | discriminate
     | reflexivity | reflexivity | reflexivity | reflexivity |].
  split; [exact Hr|]. split; [exact He | exact Hp].
Defined.



Lemma policy_constants_fixed_witness :
  In (CallNewSession (P := up)
        (sessionConfig (P := up) Scenario.valid Fake.SystemTrust))
     (trace (NewS3Agent (P := up) Scenario.valid)
            (start Scenario.valid)) /\
  fixed_policy (P := up) (sessionConfig (P := up) Scenario.valid Fake.SystemTrust).
Proof.
  assert (In (CallNewSession (P := up)
                (sessionConfig (P := up) Scenario.valid Fake.SystemTrust))
             (trace (NewS3Agent (P := up) Scenario.valid)
                    (start Scenario.valid))) as H1.
  { right. left. reflexivity. }
  split; [exact H1|].
  exact (proj1 (policy_constants_fixed (P := up) Scenario.valid
                  (start Scenario.valid)) _ H1).
Defined.

End Runs.

(** ** The further properties at work on the doubles *)

Section CoverageRuns.

#[local] Abbreviation up := Fake.up.
#[local] Abbreviation down := Fake.down.

Lemma validation_accepts_iff_witness :
  fst (validateConfig (P := up) Scenario.withCA (start Scenario.withCA))
  = None.
Proof.
  apply (proj2 (validation_accepts_iff (P := up) Scenario.withCA
                  (start Scenario.withCA))).
  split; [discriminate|]. split; [eexists; reflexivity|].
  split; discriminate.
Defined.

Lemma validation_error_propagated_witness :
  fst (validateConfig (P := up) Scenario.noSecretKey
         (start Scenario.noSecretKey))
  = Some (MissingField FSecretKey) /\
  NewS3Agent (P := up) Scenario.noSecretKey (start Scenario.noSecretKey)
  = ((None, Some (MissingField FSecretKey)), start Scenario.noSecretKey).
Proof.
  assert (fst (validateConfig (P := up) Scenario.noSecretKey
                 (start Scenario.noSecretKey))
          = Some (MissingField FSecretKey)) as H1 by reflexivity.
  split; [exact H1|].
  exact (validation_error_propagated (P := up) Scenario.noSecretKey
           (start Scenario.noSecretKey) _ H1).
Defined.

Lemma construction_succeeds_iff_witness :
  fst (NewS3Agent (P := up) Scenario.withCA (start Scenario.withCA))
  = (Some {| Client :=
               s3_New (Packages := up)
                 (sessionConfig (P := up) Scenario.withCA
                    (Fake.TrustCA (RootCA Scenario.withCA))) |},
     None).
Proof.
  apply (proj2 (construction_succeeds_iff (P := up) Scenario.withCA
                  (start Scenario.withCA) _)).
  split; [reflexivity|].
  exists (Fake.TrustCA (RootCA Scenario.withCA)).
  exists (sessionConfig (P := up) Scenario.withCA
            (Fake.TrustCA (RootCA Scenario.withCA))).
  repeat split; reflexivity.
Defined.

Lemma error_taxonomy_witness :
  snd (fst (NewS3Agent (P := down) Scenario.valid (start Scenario.valid)))
  = Some Fake.sessionDown /\
  ((exists f,
      Fake.sessionDown = MissingField f /\
      field_value f Scenario.valid = "") \/
   (exists cause,
      url_Parse (Packages := down) (Endpoint Scenario.valid) = inr cause /\
      Fake.sessionDown = InvalidEndpoint (Endpoint Scenario.valid) cause) \/
   (exists cause,
      utils_BuildTLSConfig (Packages := down) (RootCA Scenario.valid)
      = inr cause /\
      Fake.sessionDown = TLSConfigError cause) \/
   (exists t,
      utils_BuildTLSConfig (Packages := down) (RootCA Scenario.valid)
      = inl t /\
      session_NewSession (Packages := down)
        (sessionConfig (P := down) Scenario.valid t)
      = inr Fake.sessionDown)).
Proof.
  assert (snd (fst (NewS3Agent (P := down) Scenario.valid
                      (start Scenario.valid)))
          = Some Fake.sessionDown) as H1 by reflexivity.
  split; [exact H1|].
  exact (error_taxonomy (P := down) Scenario.valid (start Scenario.valid)
           _ H1).
Defined.

Lemma missing_field_truthful_witness :
  fst (validateConfig (P := up) Scenario.noSecretKey
         (start Scenario.noSecretKey))
  = Some (MissingField FSecretKey) /\
  SecretKey Scenario.noSecretKey = "" /\
  AccessKey Scenario.noSecretKey <> "".
Proof.
  assert (fst (validateConfig (P := up) Scenario.noSecretKey
                 (start Scenario.noSecretKey))
          = Some (MissingField FSecretKey)) as H1 by reflexivity.
  split; [exact H1|].
  destruct (missing_field_truthful (P := up) Scenario.noSecretKey
              (start Scenario.noSecretKey) FSecretKey H1) as (Hf & _ & Ha).
  split; [exact Hf | exact (Ha eq_refl)].
Defined.

Lemma session_opened_on_valid_fields_witness :
  In (CallNewSession (P := up)
        (sessionConfig (P := up) Scenario.valid Fake.SystemTrust))
     (trace (NewS3Agent (P := up) Scenario.valid)
            (start Scenario.valid)) /\
  exists creds ep u,
    aws.Credentials
      (sessionConfig (P := up) Scenario.valid Fake.SystemTrust)
    = Some creds /\
    credentials.AccessKeyID creds <> "" /\
    credentials.SecretAccessKey creds <> "" /\
    aws.Endpoint (sessionConfig (P := up) Scenario.valid Fake.SystemTrust)
    = Some ep /\
    ep <> "" /\ url_Parse (Packages := up) ep = inl u.
Proof.
  assert (In (CallNewSession (P := up)
                (sessionConfig (P := up) Scenario.valid Fake.SystemTrust))
             (trace (NewS3Agent (P := up) Scenario.valid)
                    (start Scenario.valid))) as H1.
  { right. left. reflexivity. }
  split; [exact H1|].
  exact (session_opened_on_valid_fields (P := up) Scenario.valid
           (start Scenario.valid) _ H1).
Defined.

Lemma session_carries_config_witness :
  In (CallNewSession (P := up)
        (sessionConfig (P := up) Scenario.withCA
           (Fake.TrustCA (RootCA Scenario.withCA))))
     (trace (NewS3Agent (P := up) Scenario.withCA)
            (start Scenario.withCA)) /\
  aws.Credentials
    (sessionConfig (P := up) Scenario.withCA
       (Fake.TrustCA (RootCA Scenario.withCA)))
  = Some {| credentials.AccessKeyID := "AK";
            credentials.SecretAccessKey := "SK";
            credentials.SessionToken := "" |}.
Proof.
  assert (In (CallNewSession (P := up)
                (sessionConfig (P := up) Scenario.withCA
                   (Fake.TrustCA (RootCA Scenario.withCA))))
             (trace (NewS3Agent (P := up) Scenario.withCA)
                    (start Scenario.withCA))) as H1.
  { right. left. reflexivity. }
  split; [exact H1|].
  exact (proj1 (session_carries_config (P := up) Scenario.withCA
                  (start Scenario.withCA) _ H1)).
Defined.

Lemma tls_builder_called_iff_valid_witness :
  hd_error (trace (NewS3Agent (P := up) Scenario.badCA)
                  (start Scenario.badCA))
  = Some (CallBuildTLSConfig (P := up) (RootCA Scenario.badCA)).
Proof.
  apply (proj2 (tls_builder_called_iff_valid (P := up) Scenario.badCA
                  (start Scenario.badCA))).
  reflexivity.
Defined.

Lemma client_built_for_handle_witness :
  In (CallS3New (P := up)
        (sessionConfig (P := up) Scenario.valid Fake.SystemTrust))
     (trace (NewS3Agent (P := up) Scenario.valid)
            (start Scenario.valid)) /\
  fst (NewS3Agent (P := up) Scenario.valid (start Scenario.valid))
  = (Some {| Client :=
               s3_New (Packages := up)
                 (sessionConfig (P := up) Scenario.valid
                    Fake.SystemTrust) |},
     None).
Proof.
  assert (In (CallS3New (P := up)
                (sessionConfig (P := up) Scenario.valid Fake.SystemTrust))
             (trace (NewS3Agent (P := up) Scenario.valid)
                    (start Scenario.valid))) as H1.
  { right. right. left. reflexivity. }
  split; [exact H1|].
  exact (proj1 (client_built_for_handle (P := up) Scenario.valid
                  (start Scenario.valid)) _ H1).
Defined.

Lemma tls_error_hides_keys_witness :
  RootCA Scenario.badCA = RootCA Scenario.badCA2 /\
  fst (NewS3Agent (P := up) Scenario.badCA (start Scenario.badCA))
  = fst (NewS3Agent (P := up) Scenario.badCA2 (start Scenario.badCA2)).
Proof.
  assert (RootCA Scenario.badCA = RootCA Scenario.badCA2) as H1
    by reflexivity.
  split; [exact H1|].
  destruct (tls_error_hides_keys (P := up)
              Scenario.badCA Scenario.badCA2
              (start Scenario.badCA) (start Scenario.badCA2)
              (libError "utils" "append ca cert failed")
              H1 eq_refl eq_refl eq_refl) as [Ha Hb].
  exact (eq_trans Ha (eq_sym Hb)).
Defined.

End CoverageRuns.
